(** * pennylane_alice_bob/device.py: the AliceBobQubitDevice adapter

    A shallow embedding of [AliceBobQubitDevice.configured_backend] and
    [AliceBobQubitDevice.__new__], and the properties of the backend
    resolver and of device construction.

    The two provider libraries and the host framework are collaborators the
    module imports; they are taken as variables of a section: the local
    catalog, the two lookups by name and the device factory. *)

From Stdlib Require Import ZArith Ascii String List Bool Lia.
From stdpp Require Import base option strings gmap.

Import ListNotations.
Open Scope string_scope.

(** ** Python strings

    A [str] is a sequence of code points; a [string] stands for one whose
    code points are below 256, one [ascii] per code point. *)

Module PyStr.

(** The code points [str.strip()] removes when no argument is given: the
    ones [str.isspace] accepts. Below 256 these are TAB..CR, FS..US, the
    space, NEL (0x85) and the no-break space (0xA0). *)
Definition isspace (c : ascii) : bool :=
  let n := nat_of_ascii c in
  (((9 <=? n) && (n <=? 13)) || ((28 <=? n) && (n <=? 32))
   || (n =? 133) || (n =? 160))%nat.

Fixpoint lstrip (s : string) : string :=
  match s with
  | EmptyString => EmptyString
  | String c rest => if isspace c then lstrip rest else s
  end.

Fixpoint rstrip (s : string) : string :=
  match s with
  | EmptyString => EmptyString
  | String c rest =>
      match rstrip rest with
      | EmptyString => if isspace c then EmptyString else String c EmptyString
      | kept => String c kept
      end
  end.

(** [s.strip()] *)
Definition strip (s : string) : string := rstrip (lstrip s).

(** [len(s)] *)
Definition len (s : string) : Z := Z.of_nat (String.length s).

(** [sep.join(parts)] *)
Fixpoint join (sep : string) (parts : list string) : string :=
  match parts with
  | [] => ""
  | [p] => p
  | p :: rest => p ++ sep ++ join sep rest
  end.


(** [all(c.isspace() for c in s)]: nothing but whitespace, the empty
    string included. *)
Fixpoint blank (s : string) : bool :=
  match s with
  | EmptyString => true
  | String c rest => isspace c && blank rest
  end.

End PyStr.

(** ** Python values, objects and the store *)

Definition loc := positive.

(** The values the adapter passes around. It looks into none of them except
    strings; an object of any class (a backend, a device, a float given as a
    keyword option) is a reference into the store. *)
Inductive val :=
| VNone
| VInt (n : Z)
| VStr (s : string)
| VRef (l : loc).
Arguments VRef l%_positive.

(** An instance of the class [Stub] that [__new__] declares: its class body
    is the one binding [n_qubits = wires]. *)
Record Stub := mkStub { n_qubits : val }.

(** [getattr(stub, k)] restricted to the attributes the class body binds. *)
Definition Stub_getattr (s : Stub) (k : string) : option val :=
  if decide (k = "n_qubits") then Some (n_qubits s) else None.

(** What an attribute of a stored object holds: a value, or the closure
    [conf] of [__new__], which captures the class [Stub] built from
    [wires]. *)
Inductive attr :=
| AVal (v : val)
| AConf (wires : val).

(** Calling an attribute with no argument. [conf()] instantiates [Stub];
    a plain value is not modelled as callable. *)
Definition call0 (a : attr) : option Stub :=
  match a with
  | AConf w => Some (mkStub w)
  | AVal _ => None
  end.

(** A stored object: its class and its instance attributes. *)
Record obj := mkObj { cls : string; attrs : gmap string attr }.

Global Instance obj_inhabited : Inhabited obj := populate (mkObj "object" ∅).

Abbreviation heap := (gmap loc obj).

(** The object a reference denotes; a location never written denotes an
    object without attributes. *)
Definition deref (h : heap) (l : loc) : obj := h !!! l.
Arguments deref h l%_positive.

(** [getattr(VRef l, k)] on the instance attributes *)
Definition getattr (h : heap) (l : loc) (k : string) : option attr :=
  attrs (deref h l) !! k.
Arguments getattr h l%_positive k%_string.

(** [VRef l . k = a]: the attribute is replaced in place, the class and
    every other attribute of the object stay. *)
Definition set_field (o : obj) (k : string) (a : attr) : obj :=
  mkObj (cls o) (<[k := a]> (attrs o)).

Definition store_attr (h : heap) (l : loc) (k : string) (a : attr) : heap :=
  <[l := set_field (deref h l) k a]> h.
Arguments store_attr h l%_positive k%_string a.

(** [type(v).__name__] *)
Definition class_of (h : heap) (v : val) : string :=
  match v with
  | VNone => "NoneType"
  | VInt _ => "int"
  | VStr _ => "str"
  | VRef l => cls (deref h l)
  end.

(** Keyword arguments [**kwargs], in the order given. *)
Definition kwargs := list (string * val).

Definition has_key (k : string) (kw : kwargs) : bool :=
  existsb (fun p => String.eqb (fst p) k) kw.

(** ** Effects: the store, what the module prints or warns, exceptions *)

(** What the module itself emits: [print(...)] and [warnings.warn(...)]. *)
Inductive event :=
| Print (line : string)
| Warn (message : string).

(** The exceptions of a run. [Foreign] is one raised inside a collaborator;
    it passes through the module unchanged. The others are raised by the
    module's own statements: a keyword bound twice at a call, an attribute
    assigned on a value that has none, and the [DeviceError] of [__new__]. *)
Inductive exn :=
| TypeError_multiple_values (argument : string)
| AttributeError (class attribute : string)
| DeviceError (message : string)
| Foreign (e : string).

Inductive result (A : Type) :=
| Ret (a : A)
| Raise (e : exn).
Arguments Ret {A} a.
Arguments Raise {A} e.

Record world := mkWorld { store : heap; trace : list event }.

Definition M (A : Type) : Type := world -> result A * world.

Definition ret {A} (a : A) : M A := fun w => (Ret a, w).

Definition raise {A} (e : exn) : M A := fun w => (Raise e, w).

Definition bind {A B} (c : M A) (k : A -> M B) : M B :=
  fun w =>
    match c w with
    | (Ret a, w') => k a w'
    | (Raise e, w') => (Raise e, w')
    end.

Declare Scope py_scope.
Delimit Scope py_scope with py.
Notation "x <- c ;; k" := (bind c (fun x => k))
  (at level 20, c at level 99, k at level 200) : py_scope.
Notation "c ;; k" := (bind c (fun _ => k))
  (at level 100, k at level 200, right associativity) : py_scope.
Open Scope py_scope.

Definition emit (e : event) : M unit :=
  fun w => (Ret tt, mkWorld (store w) (trace w ++ [e])).

(** [print(line)] *)
Definition print (line : string) : M unit := emit (Print line).

(** [warnings.warn(message)] under the default filter: the warning is
    issued and the call returns. *)
Definition warnings_warn (message : string) : M unit := emit (Warn message).

(** A call into a collaborator: it works on the store and either returns a
    value or raises. *)
Inductive reply :=
| Returns (v : val)
| Throws (e : string).

Definition extern := heap -> reply * heap.

Definition call (f : extern) : M val :=
  fun w =>
    match f (store w) with
    | (Returns v, h) => (Ret v, mkWorld h (trace w))
    | (Throws e, h) => (Raise (Foreign e), mkWorld h (trace w))
    end.

(** [target.k = a]. [None], an [int] and a [str] take no attribute. *)
Definition setattr (target : val) (k : string) (a : attr) : M unit :=
  fun w =>
    match target with
    | VRef l => (Ret tt, mkWorld (store_attr (store w) l k a) (trace w))
    | _ => (Raise (AttributeError (class_of (store w) target) k), w)
    end.

(** [v is None] *)
Definition is_None (v : val) : bool :=
  match v with VNone => true | _ => false end.

(** ** The provider's catalog entries: the elements of
    [AliceBobLocalProvider().backends()], of which the module reads
    [element.name] only. *)
Module Element.
Record t := mk { name : string }.
End Element.

(** ** class AliceBobQubitDevice *)

Module AliceBobQubitDevice.

(** The property [name]. *)
Definition name (self : val) : string := "alicebob.qubit".

Section Collaborators.

(** [AliceBobLocalProvider().backends()] *)
Variable backends : list Element.t.
(** [AliceBobLocalProvider().get_backend(name, **kwargs)] *)
Variable local_get_backend : string -> kwargs -> extern.
(** [AliceBobRemoteProvider(api_key).get_backend(name, **kwargs)] *)
Variable remote_get_backend : string -> string -> kwargs -> extern.
(** [qml.device(name, wires=..., backend=..., shots=...)] *)
Variable qml_device : string -> val -> val -> val -> extern.

(** The body of the [if] at the first matching element
    (lines 44-48). *)
Definition on_match (backend api_key : string) (kw : kwargs) : M val :=
  print ("Using alice & bob " ++ backend ++ " backend...") ;;
  if (1 <? PyStr.len api_key)%Z
  then call (remote_get_backend api_key backend kw)
  else call (local_get_backend backend kw).

(** The statements after the loop (lines 50-51). *)
Definition on_no_match (backend : string) (kw : kwargs) : M val :=
  warnings_warn ("Backend '" ++ backend
                 ++ "' not found. Using default local backend.") ;;
  call (local_get_backend "default" kw).

(** The [for] loop over the catalog, then the statements after it. *)
Fixpoint scan (elements : list Element.t)
         (backend api_key : string) (kw : kwargs) : M val :=
  match elements with
  | element :: rest =>
      if String.eqb (PyStr.strip backend)
                    (PyStr.strip (Element.name element))
      then on_match backend api_key kw
      else scan rest backend api_key kw
  | [] => on_no_match backend kw
  end.

(** [configured_backend(backend, api_key='', **kwargs)] *)
Definition configured_backend
           (backend api_key : string) (kw : kwargs) : M val :=
  scan backends backend api_key kw.

(** The call [self.configured_backend(alice_backend, api_token,
    **kwargs)] of line 68. The two positional arguments bind [backend]
    and [api_key]; a key of [kwargs] with one of these names binds the
    parameter a second time and the call raises before the body runs,
    for the first such key. *)
Definition call_configured_backend
           (alice_backend api_token : string) (kw : kwargs) : M val :=
  match find (fun p => String.eqb (fst p) "backend"
                       || String.eqb (fst p) "api_key") kw with
  | Some (k, _) => raise (TypeError_multiple_values k)
  | None => configured_backend alice_backend api_token kw
  end.

(** [__new__(self, wires=1, shots=1024, seed="global",
    max_workers=None, alice_backend="EMU:6Q:PHYSICAL_CATS",
    api_token="", **kwargs)] *)
Definition __new__ (wires shots seed max_workers : val)
           (alice_backend api_token : string) (kw : kwargs) : M val :=
  provider <- call_configured_backend alice_backend api_token kw ;;
  let conf := AConf wires in
  setattr provider "configuration" conf ;;
  if is_None provider then
    let backend_names :=
      PyStr.join " " (map Element.name backends) in
    raise (DeviceError
             ("Backend error, please choose one of the following: "
              ++ backend_names))
  else
    call (qml_device "qiskit.remote" wires provider shots).

End Collaborators.

(** [v.name]: the property above for an instance of the class, the
    object's own attribute otherwise. *)
Definition get_name (h : heap) (v : val) : option attr :=
  if decide (class_of h v = "AliceBobQubitDevice")
  then Some (AVal (VStr (name v)))
  else match v with
       | VRef l => getattr h l "name"
       | _ => None
       end.

(** The defaults of the keyword parameters of [__new__]. *)
Definition default_wires : val := VInt 1.
Definition default_shots : val := VInt 1024.
Definition default_seed : val := VStr "global".
Definition default_max_workers : val := VNone.
Definition default_alice_backend : string := "EMU:6Q:PHYSICAL_CATS".
Definition default_api_token : string := "".

End AliceBobQubitDevice.

(** ** Test doubles for the collaborators

    Stand-ins that record which provider was asked and with what: the
    local provider answers at location 1, the remote one at location 2,
    the device factory at location 3. *)

Module Double.

Definition backends : list Element.t :=
  [ Element.mk "EMU:40Q:LOGICAL_TARGET";
    Element.mk " EMU:6Q:PHYSICAL_CATS ";
    Element.mk "EMU:1Q:LESCANNE_2020" ].

(** A backend object: where it comes from, the name it was asked by, a
    native [configuration] and the keyword options it was built with. *)
Definition backend_object (origin name : string) (kw : kwargs) : obj :=
  mkObj "ProcessorSimulator"
        (<["provider" := AVal (VStr origin)]>
           (<["name" := AVal (VStr name)]>
              (<["configuration" := AVal (VStr "native")]>
                 (foldr (fun p m => <[fst p := AVal (snd p)]> m) ∅ kw)))).

Definition local_get_backend (name : string) (kw : kwargs) : extern :=
  fun h => (Returns (VRef 1), <[1%positive := backend_object "local" name kw]> h).

Definition remote_get_backend (api_key name : string) (kw : kwargs)
  : extern :=
  fun h => (Returns (VRef 2), <[2%positive := backend_object api_key name kw]> h).

Definition qml_device (name : string) (wires backend shots : val)
  : extern :=
  fun h =>
    (Returns (VRef 3),
     <[3%positive :=
         mkObj "RemoteDevice"
               (<["short_name" := AVal (VStr name)]>
                  (<["wires" := AVal wires]>
                     (<["backend" := AVal backend]>
                        (<["shots" := AVal shots]> ∅))))]> h).

(** A local provider whose lookup hands back [None]. *)
Definition null_get_backend (name : string) (kw : kwargs) : extern :=
  fun h => (Returns VNone, h).

(** A local provider that knows no backend called ['default']. *)
Definition strict_get_backend (name : string) (kw : kwargs) : extern :=
  fun h =>
    if existsb (fun e => String.eqb name (Element.name e)) backends
    then local_get_backend name kw h
    else (Throws "QiskitBackendNotFoundError", h).

Definition w0 : world := mkWorld ∅ [].

(** A local provider whose lookup hands back the name it was asked for,
    a [str], in place of a backend object. *)
Definition echo_get_backend (name : string) (kw : kwargs) : extern :=
  fun h => (Returns (VStr name), h).

(** A device factory that raises and leaves the store as it found it. *)
Definition broken_qml_device (name : string) (wires backend shots : val)
  : extern :=
  fun h => (Throws "DeviceError", h).

End Double.

(** ** Strings *)

Section StripFacts.

Import PyStr.

Example strip_both_sides :
  strip ("  EMU:6Q:PHYSICAL_CATS" ++ String "010" " ") = "EMU:6Q:PHYSICAL_CATS".
Proof. reflexivity. Qed.

Example strip_keeps_inner : strip " a b " = "a b".
Proof. reflexivity. Qed.

Example strip_all_space : strip "   " = "".
Proof. reflexivity. Qed.

Example join_names :
  join " " (map Element.name Double.backends)
  = "EMU:40Q:LOGICAL_TARGET  EMU:6Q:PHYSICAL_CATS  EMU:1Q:LESCANNE_2020".
Proof. reflexivity. Qed.

Lemma lstrip_no_space c s : isspace c = false -> lstrip (String c s) = String c s.
Proof. intros H. simpl. now rewrite H. Qed.


End StripFacts.


(** ** The store *)

Section StoreFacts.

Variables (h : heap) (l : loc) (k : string) (a : attr).

Lemma getattr_store_attr_same : getattr (store_attr h l k a) l k = Some a.
Proof.
  unfold getattr, store_attr, deref.
  rewrite lookup_total_insert_eq. simpl. apply lookup_insert_eq.
Qed.

Lemma getattr_store_attr_other k' :
  k' ≠ k -> getattr (store_attr h l k a) l k' = getattr h l k'.
Proof.
  intros Hne. unfold getattr, store_attr, deref.
  rewrite lookup_total_insert_eq. simpl. now apply lookup_insert_ne.
Qed.

Lemma cls_store_attr : cls (deref (store_attr h l k a) l) = cls (deref h l).
Proof.
  unfold store_attr, deref. now rewrite lookup_total_insert_eq.
Qed.

Lemma lookup_store_attr_other l' :
  l' ≠ l -> store_attr h l k a !! l' = h !! l'.
Proof. intros Hne. unfold store_attr. now apply lookup_insert_ne. Qed.

Lemma deref_store_attr_other l' :
  l' ≠ l -> deref (store_attr h l k a) l' = deref h l'.
Proof.
  intros Hne. unfold store_attr, deref. now apply lookup_total_insert_ne.
Qed.

End StoreFacts.

Lemma Stub_getattr_spec (s : Stub) (k : string) (v : val) :
  Stub_getattr s k = Some v <-> k = "n_qubits" /\ v = n_qubits s.
Proof.
  unfold Stub_getattr. destruct (decide (k = "n_qubits")) as [->|Hne].
  - split; [intros [= <-]; auto | intros [_ ->]; reflexivity].
  - split; [discriminate | intros [Hk _]; contradiction].
Qed.

(** ** The backend resolver *)

Import AliceBobQubitDevice.

Section Resolver.

Variable backends : list Element.t.
Variable local_get_backend : string -> kwargs -> extern.
Variable remote_get_backend : string -> string -> kwargs -> extern.

Abbreviation scan := (scan local_get_backend remote_get_backend).
Abbreviation on_match := (on_match local_get_backend remote_get_backend).
Abbreviation on_no_match := (on_no_match local_get_backend).
Abbreviation configured_backend :=
  (configured_backend backends local_get_backend remote_get_backend).

(** The loop stops at the first element whose trimmed name is the trimmed
    request; what follows it in the catalog is not looked at. *)
Lemma scan_first_match before element after backend api_key kw :
  Forall (fun e => PyStr.strip backend <> PyStr.strip (Element.name e)) before ->
  PyStr.strip backend = PyStr.strip (Element.name element) ->
  scan (before ++ element :: after) backend api_key kw
  = on_match backend api_key kw.
Proof.
  intros Hbefore Hhit. induction Hbefore as [|e before He _ IH]; simpl.
  - rewrite Hhit. now rewrite String.eqb_refl.
  - apply String.eqb_neq in He. now rewrite He.
Qed.

Lemma scan_some_match elements backend api_key kw :
  (exists e, In e elements /\ PyStr.strip backend = PyStr.strip (Element.name e)) ->
  scan elements backend api_key kw = on_match backend api_key kw.
Proof.
  induction elements as [|e rest IH]; intros (e' & Hin & Hhit).
  - destruct Hin.
  - simpl.
    destruct (String.eqb (PyStr.strip backend) (PyStr.strip (Element.name e)))
      eqn:Heq; [reflexivity|].
    apply IH. exists e'. split; [|exact Hhit].
    destruct Hin as [<-|Hin]; [|exact Hin].
    apply String.eqb_neq in Heq. contradiction.
Qed.


Lemma on_match_run backend api_key kw w :
  on_match backend api_key kw w
  = (if (1 <? PyStr.len api_key)%Z
     then call (remote_get_backend api_key backend kw)
     else call (local_get_backend backend kw))
      (mkWorld (store w)
               (trace w ++ [Print ("Using alice & bob " ++ backend ++ " backend...")])).
Proof. reflexivity. Qed.

Lemma on_no_match_run backend kw w :
  on_no_match backend kw w
  = call (local_get_backend "default" kw)
         (mkWorld (store w)
                  (trace w ++ [Warn ("Backend '" ++ backend
                                     ++ "' not found. Using default local backend.")])).
Proof. reflexivity. Qed.

(** A call into a collaborator adds nothing to the trace. *)
Lemma call_trace (f : extern) w : trace (snd (call f w)) = trace w.
Proof. unfold call. now destruct (f (store w)) as [[v|e] h']. Qed.


Lemma call_raises (f : extern) w e :
  fst (call f w) = Raise e ->
  exists s, e = Foreign s /\ fst (f (store w)) = Throws s.
Proof.
  unfold call. destruct (f (store w)) as [[v|s] h']; simpl; [discriminate|].
  intros [= <-]. now exists s.
Qed.

(** C1: a requested name that, trimmed, equals the trimmed name of some
    catalog entry (an exact, case-sensitive comparison of the code points)
    makes [configured_backend] print the line naming the backend and hand
    back what the provider's lookup of the requested name yields, the
    keyword options passed on as they are: the remote provider's, built
    from the credential, when [len(api_key) > 1], the local provider's
    otherwise. The scan stops at the first matching entry: whatever the
    catalog holds after it, the outcome is the same. *)
Theorem configured_backend_known_name backend api_key kw w :
  (exists element, In element backends
                   /\ PyStr.strip backend = PyStr.strip (Element.name element)) ->
  let w' := mkWorld (store w)
              (trace w ++ [Print ("Using alice & bob " ++ backend ++ " backend...")]) in
  configured_backend backend api_key kw w
  = (if (1 <? PyStr.len api_key)%Z
     then call (remote_get_backend api_key backend kw) w'
     else call (local_get_backend backend kw) w')
  /\ (forall (before : list Element.t) element after,
         backends = (before ++ element :: after)%list ->
         Forall (fun e => PyStr.strip backend <> PyStr.strip (Element.name e)) before ->
         PyStr.strip backend = PyStr.strip (Element.name element) ->
         forall others,
           scan (before ++ element :: others) backend api_key kw w
           = configured_backend backend api_key kw w).
Proof.
  intros Hsome w'. split.
  - unfold AliceBobQubitDevice.configured_backend.
    rewrite (scan_some_match _ _ _ _ Hsome), on_match_run.
    now destruct (1 <? PyStr.len api_key)%Z.
  - intros before element after Hcat Hbefore Hhit others.
    unfold AliceBobQubitDevice.configured_backend.
    rewrite Hcat, !scan_first_match by assumption. reflexivity.
Qed.


End Resolver.

(** ** Device construction *)

Section Construction.

Variable backends : list Element.t.
Variable local_get_backend : string -> kwargs -> extern.
Variable remote_get_backend : string -> string -> kwargs -> extern.
Variable qml_device : string -> val -> val -> val -> extern.

Abbreviation configured_backend :=
  (configured_backend backends local_get_backend remote_get_backend).
Abbreviation call_configured_backend :=
  (call_configured_backend backends local_get_backend remote_get_backend).
Abbreviation __new__ :=
  (__new__ backends local_get_backend remote_get_backend qml_device).

(** The store the device factory is called in once [provider] is the
    object at [l]: line 76 has replaced its attribute [configuration]. *)
Abbreviation overlaid h l wires :=
  (store_attr h l "configuration" (AConf wires)).

(** *** The three ways line 68 can end *)

Lemma new_on_object wires shots seed max_workers alice_backend api_token kw w l w1 :
  call_configured_backend alice_backend api_token kw w = (Ret (VRef l), w1) ->
  __new__ wires shots seed max_workers alice_backend api_token kw w
  = call (qml_device "qiskit.remote" wires (VRef l) shots)
         (mkWorld (overlaid (store w1) l wires) (trace w1)).
Proof.
  intros Hres. unfold AliceBobQubitDevice.__new__, bind. now rewrite Hres.
Qed.

Lemma new_on_no_object wires shots seed max_workers alice_backend api_token kw w v w1 :
  call_configured_backend alice_backend api_token kw w = (Ret v, w1) ->
  (forall l, v <> VRef l) ->
  __new__ wires shots seed max_workers alice_backend api_token kw w
  = (Raise (AttributeError (class_of (store w1) v) "configuration"), w1).
Proof.
  intros Hres Hv. unfold AliceBobQubitDevice.__new__, bind. rewrite Hres.
  destruct v as [| n | s | l]; try reflexivity. now destruct (Hv l).
Qed.

Lemma new_on_raise wires shots seed max_workers alice_backend api_token kw w e w1 :
  call_configured_backend alice_backend api_token kw w = (Raise e, w1) ->
  __new__ wires shots seed max_workers alice_backend api_token kw w
  = (Raise e, w1).
Proof.
  intros Hres. unfold AliceBobQubitDevice.__new__, bind. now rewrite Hres.
Qed.

(** *** Exceptions of the resolver *)

Lemma scan_raises elements backend api_key kw w e :
  fst (scan local_get_backend remote_get_backend elements backend api_key kw w)
  = Raise e ->
  exists s, e = Foreign s.
Proof.
  induction elements as [|el rest IH]; simpl.
  - rewrite on_no_match_run. intros H.
    apply call_raises in H as (s & -> & _). now exists s.
  - destruct (String.eqb _ _); [|exact IH].
    rewrite on_match_run.
    destruct (1 <? PyStr.len api_key)%Z; intros H;
      apply call_raises in H as (s & -> & _); now exists s.
Qed.

Lemma call_configured_backend_raises alice_backend api_token kw w e :
  fst (call_configured_backend alice_backend api_token kw w) = Raise e ->
  (exists k, e = TypeError_multiple_values k) \/ (exists s, e = Foreign s).
Proof.
  unfold AliceBobQubitDevice.call_configured_backend.
  destruct (find _ kw) as [[k v]|].
  - intros [= <-]. left. now exists k.
  - intros H. right. now apply scan_raises in H.
Qed.

(** The [raise DeviceError] of line 80 is never run: [provider] being
    [None] there, the assignment of line 76 has raised before. *)
Lemma new_never_DeviceError wires shots seed max_workers alice_backend api_token kw w message :
  fst (__new__ wires shots seed max_workers alice_backend api_token kw w)
  <> Raise (DeviceError message).
Proof.
  destruct (call_configured_backend alice_backend api_token kw w)
    as [[v|e] w1] eqn:Hres.
  - destruct v as [| n | s | l].
    + rewrite (new_on_no_object _ _ _ _ _ _ _ _ _ _ Hres); [|discriminate].
      discriminate.
    + rewrite (new_on_no_object _ _ _ _ _ _ _ _ _ _ Hres); [|discriminate].
      discriminate.
    + rewrite (new_on_no_object _ _ _ _ _ _ _ _ _ _ Hres); [|discriminate].
      discriminate.
    + rewrite (new_on_object _ _ _ _ _ _ _ _ _ _ Hres).
      intros H. apply call_raises in H as (s & [=] & _).
  - rewrite (new_on_raise _ _ _ _ _ _ _ _ _ _ Hres). simpl.
    assert (H : fst (call_configured_backend alice_backend api_token kw w)
                = Raise e) by now rewrite Hres.
    apply call_configured_backend_raises in H as [[k ->]|[s ->]]; discriminate.
Qed.

(** What [__new__] returns has been returned by the device factory, called
    on an object [provider] with the overlay in place. *)
Lemma new_returns wires shots seed max_workers alice_backend api_token kw w device w' :
  __new__ wires shots seed max_workers alice_backend api_token kw w
  = (Ret device, w') ->
  exists l w1,
    call_configured_backend alice_backend api_token kw w = (Ret (VRef l), w1)
    /\ qml_device "qiskit.remote" wires (VRef l) shots
                  (overlaid (store w1) l wires)
       = (Returns device, store w')
    /\ trace w' = trace w1.
Proof.
  intros Hnew.
  destruct (call_configured_backend alice_backend api_token kw w)
    as [[v|e] w1] eqn:Hres.
  - destruct v as [| n | s | l].
    + rewrite (new_on_no_object _ _ _ _ _ _ _ _ _ _ Hres) in Hnew;
        [discriminate | discriminate].
    + rewrite (new_on_no_object _ _ _ _ _ _ _ _ _ _ Hres) in Hnew;
        [discriminate | discriminate].
    + rewrite (new_on_no_object _ _ _ _ _ _ _ _ _ _ Hres) in Hnew;
        [discriminate | discriminate].
    + rewrite (new_on_object _ _ _ _ _ _ _ _ _ _ Hres) in Hnew.
      exists l, w1. split; [reflexivity|].
      unfold call in Hnew. simpl in Hnew.
      destruct (qml_device _ _ _ _ _) as [[d|s] h'];
        [|discriminate].
      injection Hnew as <- <-. now split.
  - rewrite (new_on_raise _ _ _ _ _ _ _ _ _ _ Hres) in Hnew. discriminate.
Qed.

(** *** The overlay *)

(** C2: for a positive integer [n] given as [wires], whichever way the
    resolver came to the object [provider] it returned (the local lookup,
    the remote lookup or the fallback), the device factory is called on
    that object in a store where its attribute [configuration] is a
    function of no argument whose result has [n_qubits] equal to [n]. *)
Theorem overlay_reports_wires (n : positive) shots seed max_workers alice_backend api_token kw w l w1 :
  call_configured_backend alice_backend api_token kw w = (Ret (VRef l), w1) ->
  let wires := VInt (Z.pos n) in
  exists h,
    __new__ wires shots seed max_workers alice_backend api_token kw w
    = call (qml_device "qiskit.remote" wires (VRef l) shots)
           (mkWorld h (trace w1))
    /\ exists conf overlay,
         getattr h l "configuration" = Some conf
         /\ call0 conf = Some overlay
         /\ n_qubits overlay = VInt (Z.pos n)
         /\ Stub_getattr overlay "n_qubits" = Some (VInt (Z.pos n)).
Proof.
  intros Hres wires. exists (overlaid (store w1) l wires). split.
  - now apply new_on_object.
  - exists (AConf wires), (mkStub wires). repeat split.
    apply getattr_store_attr_same.
Qed.

(** C9: when the resolver returns an object, [__new__] changes the store
    in one place before it calls the device factory: the attribute
    [configuration] of that object. Whatever it held, it now holds the
    function [conf] built in this call, of no argument, whose result has
    the attribute [n_qubits], equal to [wires], and no other; every other
    attribute of the object, its class, and every other object of the
    store are as the resolver left them. *)
Theorem overlay_replaces_configuration_only wires shots seed max_workers alice_backend api_token kw w l w1 :
  call_configured_backend alice_backend api_token kw w = (Ret (VRef l), w1) ->
  exists h,
    __new__ wires shots seed max_workers alice_backend api_token kw w
    = call (qml_device "qiskit.remote" wires (VRef l) shots)
           (mkWorld h (trace w1))
    /\ getattr h l "configuration" = Some (AConf wires)
    /\ (exists overlay,
          call0 (AConf wires) = Some overlay
          /\ forall k v, Stub_getattr overlay k = Some v
                         <-> k = "n_qubits" /\ v = wires)
    /\ (forall k, k <> "configuration" ->
                  getattr h l k = getattr (store w1) l k)
    /\ cls (deref h l) = cls (deref (store w1) l)
    /\ (forall l', l' <> l -> h !! l' = store w1 !! l').
Proof.
  intros Hres. exists (overlaid (store w1) l wires). repeat split.
  - now apply new_on_object.
  - apply getattr_store_attr_same.
  - exists (mkStub wires). split; [reflexivity|].
    intros k v. apply Stub_getattr_spec.
  - intros k Hk. now apply getattr_store_attr_other.
  - apply cls_store_attr.
  - intros l' Hl'. now apply lookup_store_attr_other.
Qed.

(** *** The result *)

(** C6: when the resolver returns an object, [__new__] returns what
    [qml.device('qiskit.remote', wires=wires, backend=provider,
    shots=shots)] returns, [provider] being that object with the overlay in
    place. For [wires=3, shots=500, alice_backend="EMU:6Q:PHYSICAL_CATS",
    api_token=""] and no other keyword, with a catalog that lists the name
    and a local provider that returns an object for it: the resolver takes
    the local lookup of that name, the overlay has [n_qubits] equal to 3
    and the factory is called with [shots=500]. *)
Theorem new_delegates_to_device_factory :
  (forall wires shots seed max_workers alice_backend api_token kw w l w1,
      call_configured_backend alice_backend api_token kw w
      = (Ret (VRef l), w1) ->
      __new__ wires shots seed max_workers alice_backend api_token kw w
      = call (qml_device "qiskit.remote" wires (VRef l) shots)
             (mkWorld (overlaid (store w1) l wires) (trace w1)))
  /\ (forall w l h1,
         (exists element,
             In element backends
             /\ PyStr.strip (Element.name element) = "EMU:6Q:PHYSICAL_CATS") ->
         local_get_backend "EMU:6Q:PHYSICAL_CATS" [] (store w)
         = (Returns (VRef l), h1) ->
         let said :=
           (trace w
            ++ [Print "Using alice & bob EMU:6Q:PHYSICAL_CATS backend..."])%list in
         call_configured_backend "EMU:6Q:PHYSICAL_CATS" "" [] w
         = (Ret (VRef l), mkWorld h1 said)
         /\ __new__ (VInt 3) (VInt 500) default_seed default_max_workers
                    "EMU:6Q:PHYSICAL_CATS" "" [] w
            = call (qml_device "qiskit.remote" (VInt 3) (VRef l) (VInt 500))
                   (mkWorld (overlaid h1 l (VInt 3)) said)
         /\ exists overlay,
             (getattr (overlaid h1 l (VInt 3)) l "configuration" ≫= call0)
             = Some overlay
             /\ n_qubits overlay = VInt 3).
Proof.
  split.
  - intros. now apply new_on_object.
  - intros w l h1 (element & Hin & Hname) Hlocal said.
    assert (Hres : call_configured_backend "EMU:6Q:PHYSICAL_CATS" "" [] w
                   = (Ret (VRef l), mkWorld h1 said)).
    { change (call_configured_backend "EMU:6Q:PHYSICAL_CATS" "" [] w)
        with (configured_backend "EMU:6Q:PHYSICAL_CATS" "" [] w).
      unfold AliceBobQubitDevice.configured_backend.
      rewrite scan_some_match, on_match_run.
      - simpl. unfold call. simpl. now rewrite Hlocal.
      - exists element. split; [exact Hin|]. now rewrite Hname. }
    split; [exact Hres|]. split.
    + now rewrite (new_on_object _ _ _ _ _ _ _ _ _ _ Hres).
    + exists (mkStub (VInt 3)). split; [|reflexivity].
      now rewrite getattr_store_attr_same.
Qed.

(** C10: a value [__new__] returns is the very value the call
    [qml.device('qiskit.remote', ...)] returned, in the store that call
    left; the class makes no instance of itself. So, the factory building
    no instance of AliceBobQubitDevice, the value returned is none, and
    reading [name] on it never yields the property of the class. *)
Theorem new_returns_the_factory_device wires shots seed max_workers alice_backend api_token kw w device w' :
  __new__ wires shots seed max_workers alice_backend api_token kw w
  = (Ret device, w') ->
  (forall name ws b s h v h',
      qml_device name ws b s h = (Returns v, h') ->
      class_of h' v <> "AliceBobQubitDevice") ->
  (exists l h, qml_device "qiskit.remote" wires (VRef l) shots h
               = (Returns device, store w'))
  /\ class_of (store w') device <> "AliceBobQubitDevice"
  /\ get_name (store w') device
     = match device with
       | VRef l => getattr (store w') l "name"
       | _ => None
       end.
Proof.
  intros Hnew Hforeign.
  apply new_returns in Hnew as (l & w1 & _ & Hdev & _).
  assert (Hcls : class_of (store w') device <> "AliceBobQubitDevice")
    by exact (Hforeign _ _ _ _ _ _ _ Hdev).
  split; [now exists l, (overlaid (store w1) l wires)|].
  split; [exact Hcls|].
  unfold get_name. now destruct (decide _).
Qed.

(** *** Parameters that are not read *)

(** C7: two calls of [__new__] that differ in [max_workers] only have the
    same outcome, value or exception, store and trace, whatever the
    collaborators do: the parameter reaches none of them. *)
Theorem max_workers_is_inert wires shots seed max_workers max_workers' alice_backend api_token kw w :
  __new__ wires shots seed max_workers alice_backend api_token kw w
  = __new__ wires shots seed max_workers' alice_backend api_token kw w.
Proof. reflexivity. Qed.

(** C8: two calls of [__new__] that differ in [seed] only have the same
    outcome, value or exception, store and trace, whatever the
    collaborators do; the default ["global"] is one such value. *)
Theorem seed_is_inert wires shots seed seed' max_workers alice_backend api_token kw w :
  __new__ wires shots seed max_workers alice_backend api_token kw w
  = __new__ wires shots seed' max_workers alice_backend api_token kw w
  /\ __new__ wires shots seed max_workers alice_backend api_token kw w
     = __new__ wires shots default_seed max_workers alice_backend api_token kw w.
Proof. split; reflexivity. Qed.

(** *** Null resolution *)

Lemma scan_never_None elements backend api_key kw w :
  (forall name kw h, fst (local_get_backend name kw h) <> Returns VNone) ->
  (forall key name kw h,
      fst (remote_get_backend key name kw h) <> Returns VNone) ->
  fst (scan local_get_backend remote_get_backend elements backend api_key kw w)
  <> Ret VNone.
Proof.
  intros Hlocal Hremote.
  assert (Hcall : forall (f : extern) w0,
             fst (f (store w0)) <> Returns VNone ->
             fst (call f w0) <> Ret VNone).
  { intros f w0 Hf. unfold call.
    destruct (f (store w0)) as [[v|s] h']; simpl in *; congruence. }
  induction elements as [|el rest IH]; simpl.
  - rewrite on_no_match_run. apply Hcall, Hlocal.
  - destruct (String.eqb _ _); [|exact IH].
    rewrite on_match_run.
    destruct (1 <? PyStr.len api_key)%Z; apply Hcall; [apply Hremote|apply Hlocal].
Qed.

(** C5: every [return] of [configured_backend] hands back the result of a
    provider lookup, so with providers whose lookups never return [None]
    the resolver never returns [None], for every name, credential and
    keyword options. And in no run does [__new__] reach its
    [raise DeviceError]. *)
Theorem configured_backend_never_None backend api_key kw w :
  (forall name kw h, fst (local_get_backend name kw h) <> Returns VNone) ->
  (forall key name kw h,
      fst (remote_get_backend key name kw h) <> Returns VNone) ->
  fst (configured_backend backend api_key kw w) <> Ret VNone
  /\ (forall wires shots seed max_workers message,
         fst (__new__ wires shots seed max_workers backend api_key kw w)
         <> Raise (DeviceError message)).
Proof.
  intros Hlocal Hremote. split.
  - now apply scan_never_None.
  - intros. apply new_never_DeviceError.
Qed.

(** With [None] for [provider], line 76 raises [AttributeError]; the test
    of line 78 comes after it. *)
Lemma new_on_None wires shots seed max_workers alice_backend api_token kw w w1 :
  call_configured_backend alice_backend api_token kw w = (Ret VNone, w1) ->
  __new__ wires shots seed max_workers alice_backend api_token kw w
  = (Raise (AttributeError "NoneType" "configuration"), w1).
Proof.
  intros Hres.
  rewrite (new_on_no_object _ _ _ _ _ _ _ _ _ _ Hres); [reflexivity|discriminate].
Qed.

End Construction.

(** ** Runs against the test doubles *)

Section Runs.

Local Abbreviation resolve :=
  (configured_backend Double.backends Double.local_get_backend
                      Double.remote_get_backend).
Local Abbreviation construct :=
  (__new__ Double.backends Double.local_get_backend
           Double.remote_get_backend Double.qml_device).

(** A credential of one character is not enough for the remote provider. *)
Example one_character_credential_is_local :
  fst (resolve "EMU:1Q:LESCANNE_2020" "x" [] Double.w0) = Ret (VRef 1)
  /\ fst (resolve "EMU:1Q:LESCANNE_2020" "xy" [] Double.w0) = Ret (VRef 2).
Proof. split; reflexivity. Qed.

(** The comparison is on the trimmed names, and the lookup is given the
    name as requested. *)
Example trimmed_on_both_sides :
  resolve "EMU:6Q:PHYSICAL_CATS  " "" [] Double.w0
  = (Ret (VRef 1),
     mkWorld (<[1%positive :=
                 Double.backend_object "local" "EMU:6Q:PHYSICAL_CATS  " []]> ∅)
             [Print "Using alice & bob EMU:6Q:PHYSICAL_CATS   backend..."]).
Proof. reflexivity. Qed.

(** The comparison distinguishes upper and lower case. *)
Example lower_case_is_unknown :
  trace (snd (resolve "emu:6q:physical_cats" "" [] Double.w0))
  = [Warn "Backend 'emu:6q:physical_cats' not found. Using default local backend."].
Proof. reflexivity. Qed.

(** A keyword option called [backend] or [api_key] stops the call of
    line 68. *)
Example keyword_bound_twice :
  construct (VInt 1) (VInt 1024) default_seed default_max_workers
            default_alice_backend default_api_token
            [("kappa_1", VInt 10); ("api_key", VStr "k")] Double.w0
  = (Raise (TypeError_multiple_values "api_key"), Double.w0).
Proof. reflexivity. Qed.

(** With a local provider that has no backend called ['default'], the
    fallback ends in that provider's exception, after the warning. *)
Example fallback_with_strict_provider :
  configured_backend Double.backends Double.strict_get_backend
                     Double.remote_get_backend
                     "NONEXISTENT_BACKEND" "" [] Double.w0
  = (Raise (Foreign "QiskitBackendNotFoundError"),
     mkWorld ∅ [Warn "Backend 'NONEXISTENT_BACKEND' not found. Using default local backend."]).
Proof. reflexivity. Qed.

End Runs.

(** C4: with a local provider whose lookup returns [None], the resolver
    returns [None] and [__new__] ends in the [AttributeError] of the
    assignment [provider.configuration = conf] of line 76. The
    [DeviceError] listing the catalog's names, which line 78 to 80 raise
    for a [provider] that is [None], is not raised: these lines come after
    the assignment. *)
Theorem new_with_no_handle_raises_AttributeError :
  configured_backend Double.backends Double.null_get_backend
                     Double.remote_get_backend
                     default_alice_backend default_api_token [] Double.w0
  = (Ret VNone,
     mkWorld ∅ [Print "Using alice & bob EMU:6Q:PHYSICAL_CATS backend..."])
  /\ __new__ Double.backends Double.null_get_backend
             Double.remote_get_backend Double.qml_device
             default_wires default_shots default_seed default_max_workers
             default_alice_backend default_api_token [] Double.w0
     = (Raise (AttributeError "NoneType" "configuration"),
        mkWorld ∅ [Print "Using alice & bob EMU:6Q:PHYSICAL_CATS backend..."])
  /\ fst (__new__ Double.backends Double.null_get_backend
                  Double.remote_get_backend Double.qml_device
                  default_wires default_shots default_seed default_max_workers
                  default_alice_backend default_api_token [] Double.w0)
     <> Raise (DeviceError
                 ("Backend error, please choose one of the following: "
                  ++ PyStr.join " " (map Element.name Double.backends))).
Proof. repeat split. discriminate. Qed.

(** ** The theorems at the test doubles *)

Lemma configured_backend_known_name_witness :
  configured_backend Double.backends Double.local_get_backend
                     Double.remote_get_backend
                     "EMU:6Q:PHYSICAL_CATS" "token" [("kappa_1", VInt 10)]
                     Double.w0
  = (Ret (VRef 2),
     mkWorld (<[2%positive :=
                 Double.backend_object "token" "EMU:6Q:PHYSICAL_CATS"
                                       [("kappa_1", VInt 10)]]> ∅)
             [Print "Using alice & bob EMU:6Q:PHYSICAL_CATS backend..."]).
Proof.
  destruct (configured_backend_known_name
              Double.backends Double.local_get_backend
              Double.remote_get_backend
              "EMU:6Q:PHYSICAL_CATS" "token" [("kappa_1", VInt 10)]
              Double.w0) as [Hrun _].
  - exists (Element.mk " EMU:6Q:PHYSICAL_CATS "). split.
    + simpl. auto.
    + reflexivity.
  - rewrite Hrun. reflexivity.
Defined.


Lemma overlay_reports_wires_witness :
  exists h,
    __new__ Double.backends Double.local_get_backend
            Double.remote_get_backend Double.qml_device
            (VInt 5) (VInt 1024) default_seed default_max_workers
            "NONEXISTENT_BACKEND" "" [] Double.w0
    = call (Double.qml_device "qiskit.remote" (VInt 5) (VRef 1) (VInt 1024))
           (mkWorld h [Warn "Backend 'NONEXISTENT_BACKEND' not found. Using default local backend."])
    /\ exists conf overlay,
         getattr h 1 "configuration" = Some conf
         /\ call0 conf = Some overlay
         /\ n_qubits overlay = VInt 5
         /\ Stub_getattr overlay "n_qubits" = Some (VInt 5).
Proof.
  apply (overlay_reports_wires
           Double.backends Double.local_get_backend
           Double.remote_get_backend Double.qml_device
           5 (VInt 1024) default_seed default_max_workers
           "NONEXISTENT_BACKEND" "" [] Double.w0 1%positive
           (mkWorld (<[1%positive := Double.backend_object "local" "default" []]> ∅)
                    [Warn "Backend 'NONEXISTENT_BACKEND' not found. Using default local backend."])).
  reflexivity.
Defined.

Lemma overlay_replaces_configuration_only_witness :
  getattr (<[2%positive :=
              Double.backend_object "token" "EMU:1Q:LESCANNE_2020" []]> ∅)
          2 "configuration"
  = Some (AVal (VStr "native"))
  /\ exists h,
      __new__ Double.backends Double.local_get_backend
              Double.remote_get_backend Double.qml_device
              (VInt 2) (VInt 100) default_seed default_max_workers
              "EMU:1Q:LESCANNE_2020" "token" [] Double.w0
      = call (Double.qml_device "qiskit.remote" (VInt 2) (VRef 2) (VInt 100))
             (mkWorld h [Print "Using alice & bob EMU:1Q:LESCANNE_2020 backend..."])
      /\ getattr h 2 "configuration" = Some (AConf (VInt 2))
      /\ getattr h 2 "provider" = Some (AVal (VStr "token")).
Proof.
  split; [reflexivity|].
  destruct (overlay_replaces_configuration_only
              Double.backends Double.local_get_backend
              Double.remote_get_backend Double.qml_device
              (VInt 2) (VInt 100) default_seed default_max_workers
              "EMU:1Q:LESCANNE_2020" "token" [] Double.w0 2%positive
              (mkWorld (<[2%positive :=
                           Double.backend_object "token" "EMU:1Q:LESCANNE_2020" []]> ∅)
                       [Print "Using alice & bob EMU:1Q:LESCANNE_2020 backend..."]))
    as (h & Hnew & Hconf & _ & Hothers & _).
  - reflexivity.
  - exists h. split; [exact Hnew|]. split; [exact Hconf|].
    rewrite Hothers by discriminate. reflexivity.
Defined.

Lemma new_delegates_to_device_factory_witness :
  exists w',
    __new__ Double.backends Double.local_get_backend
            Double.remote_get_backend Double.qml_device
            (VInt 3) (VInt 500) default_seed default_max_workers
            "EMU:6Q:PHYSICAL_CATS" "" [] Double.w0
    = (Ret (VRef 3), w')
    /\ getattr (store w') 3 "shots" = Some (AVal (VInt 500))
    /\ getattr (store w') 3 "backend" = Some (AVal (VRef 1))
    /\ getattr (store w') 1 "provider" = Some (AVal (VStr "local"))
    /\ getattr (store w') 1 "name" = Some (AVal (VStr "EMU:6Q:PHYSICAL_CATS"))
    /\ (getattr (store w') 1 "configuration" ≫= call0) = Some (mkStub (VInt 3)).
Proof.
  destruct (new_delegates_to_device_factory
              Double.backends Double.local_get_backend
              Double.remote_get_backend Double.qml_device) as [_ Hexample].
  destruct (Hexample Double.w0 1%positive
              (<[1%positive :=
                  Double.backend_object "local" "EMU:6Q:PHYSICAL_CATS" []]> ∅))
    as (_ & Hnew & _).
  - exists (Element.mk " EMU:6Q:PHYSICAL_CATS "). split.
    + simpl. auto.
    + reflexivity.
  - reflexivity.
  - rewrite Hnew. eexists. split; [reflexivity|]. repeat split.
Defined.

Lemma new_returns_the_factory_device_witness :
  class_of
    (store (snd (__new__ Double.backends Double.local_get_backend
                         Double.remote_get_backend Double.qml_device
                         default_wires default_shots default_seed
                         default_max_workers default_alice_backend
                         default_api_token [] Double.w0)))
    (VRef 3)
  <> "AliceBobQubitDevice".
Proof.
  apply (new_returns_the_factory_device
           Double.backends Double.local_get_backend
           Double.remote_get_backend Double.qml_device
           default_wires default_shots default_seed default_max_workers
           default_alice_backend default_api_token [] Double.w0).
  - reflexivity.
  - intros name ws b s h v h' [= <- <-]. simpl. unfold deref.
    rewrite lookup_total_insert_eq. discriminate.
Defined.

Lemma configured_backend_never_None_witness :
  fst (configured_backend Double.backends Double.local_get_backend
                          Double.remote_get_backend
                          "NONEXISTENT_BACKEND" "token" [] Double.w0)
  <> Ret VNone.
Proof.
  apply (configured_backend_never_None
           Double.backends Double.local_get_backend
           Double.remote_get_backend Double.qml_device
           "NONEXISTENT_BACKEND" "token" [] Double.w0).
  - intros name kw h. simpl. discriminate.
  - intros key name kw h. simpl. discriminate.
Defined.

(** ** Trimming and padding *)

Section StripPadding.

Import PyStr.

Lemma rstrip_blank q : blank q = true -> rstrip q = "".
Proof.
  induction q as [|c r IH]; simpl; [reflexivity|].
  intros [Hc Hr]%andb_prop. now rewrite (IH Hr), Hc.
Qed.

Lemma lstrip_blank q : blank q = true -> lstrip q = "".
Proof.
  induction q as [|c r IH]; simpl; [reflexivity|].
  intros [Hc Hr]%andb_prop. now rewrite Hc, IH.
Qed.

Lemma lstrip_blank_app p s : blank p = true -> lstrip (p ++ s) = lstrip s.
Proof.
  induction p as [|c r IH]; simpl; [reflexivity|].
  intros [Hc Hr]%andb_prop. now rewrite Hc, IH.
Qed.

Lemma rstrip_app_blank s q : blank q = true -> rstrip (s ++ q) = rstrip s.
Proof.
  intros Hq. induction s as [|c r IH]; simpl.
  - now apply rstrip_blank.
  - now rewrite IH.
Qed.

Lemma strip_app_blank s q : blank q = true -> strip (s ++ q) = strip s.
Proof.
  intros Hq. unfold strip. induction s as [|c r IH].
  - simpl. now rewrite lstrip_blank.
  - simpl. destruct (isspace c); [exact IH|].
    change (String c (r ++ q)) with (String c r ++ q).
    now apply rstrip_app_blank.
Qed.

(** Whitespace around a string does not survive [strip]. *)
Lemma strip_padded p s q :
  blank p = true -> blank q = true -> strip (p ++ s ++ q) = strip s.
Proof.
  intros Hp Hq. unfold strip. rewrite lstrip_blank_app by exact Hp.
  now apply strip_app_blank.
Qed.

End StripPadding.

(** ** More on the resolver *)

Section ResolverBranches.

Variable local_get_backend : string -> kwargs -> extern.
Variable remote_get_backend : string -> string -> kwargs -> extern.

(** The loop as one test on the whole catalog. *)
Lemma scan_existsb elements backend api_key kw :
  scan local_get_backend remote_get_backend elements backend api_key kw
  = if existsb (fun e => String.eqb (PyStr.strip backend)
                                    (PyStr.strip (Element.name e))) elements
    then on_match local_get_backend remote_get_backend backend api_key kw
    else on_no_match local_get_backend backend kw.
Proof.
  induction elements as [|e rest IH]; simpl; [reflexivity|].
  now destruct (String.eqb _ _).
Qed.

Lemma known_existsb elements backend :
  existsb (fun e => String.eqb (PyStr.strip backend)
                               (PyStr.strip (Element.name e))) elements = true
  <-> exists e, In e elements
                /\ PyStr.strip backend = PyStr.strip (Element.name e).
Proof.
  rewrite existsb_exists. split; intros (e & Hin & He); exists e; split;
    try exact Hin; now apply String.eqb_eq.
Qed.

Lemma unknown_existsb elements backend :
  existsb (fun e => String.eqb (PyStr.strip backend)
                               (PyStr.strip (Element.name e))) elements = false
  <-> forall e, In e elements
                -> PyStr.strip backend <> PyStr.strip (Element.name e).
Proof.
  split.
  - intros Hf e Hin He.
    assert (Ht : existsb (fun e => String.eqb (PyStr.strip backend)
                                     (PyStr.strip (Element.name e))) elements
                 = true) by (apply known_existsb; now exists e).
    congruence.
  - intros Hnone. apply not_true_is_false. intros Ht.
    apply known_existsb in Ht as (e & Hin & He). exact (Hnone e Hin He).
Qed.

(** X2: every run of [configured_backend] makes one provider lookup and
    emits one message before it, and its outcome is that lookup's: the
    remote lookup of the requested name after the [print] when the name is
    known and [len(api_key) > 1], the local lookup of the requested name
    after the [print] when it is known and the key is shorter, the local
    lookup of ['default'] after the warning when it is unknown. *)
Theorem configured_backend_one_lookup backends backend api_key kw w :
  exists (f : extern) (e : event),
    configured_backend backends local_get_backend remote_get_backend
                       backend api_key kw w
    = call f (mkWorld (store w) (trace w ++ [e]))
    /\ (((exists el, In el backends
                    /\ PyStr.strip backend = PyStr.strip (Element.name el))
         /\ (1 < PyStr.len api_key)%Z
         /\ f = remote_get_backend api_key backend kw
         /\ e = Print ("Using alice & bob " ++ backend ++ " backend..."))
        \/ ((exists el, In el backends
                       /\ PyStr.strip backend = PyStr.strip (Element.name el))
            /\ (PyStr.len api_key <= 1)%Z
            /\ f = local_get_backend backend kw
            /\ e = Print ("Using alice & bob " ++ backend ++ " backend..."))
        \/ ((forall el, In el backends
                        -> PyStr.strip backend <> PyStr.strip (Element.name el))
            /\ f = local_get_backend "default" kw
            /\ e = Warn ("Backend '" ++ backend
                         ++ "' not found. Using default local backend."))).
Proof.
  unfold configured_backend. rewrite scan_existsb.
  destruct (existsb _ backends) eqn:Hknown.
  - apply known_existsb in Hknown. rewrite on_match_run.
    destruct (1 <? PyStr.len api_key)%Z eqn:Hlen.
    + apply Z.ltb_lt in Hlen. do 2 eexists. split; [reflexivity|].
      left. auto.
    + apply Z.ltb_ge in Hlen. do 2 eexists. split; [reflexivity|].
      right. left. auto.
  - pose proof (proj1 (unknown_existsb _ _) Hknown) as Hunknown.
    rewrite on_no_match_run.
    do 2 eexists. split; [reflexivity|]. right. right. auto.
Qed.

(** X3: [configured_backend] raises nothing of its own, whatever the name,
    the credential and the keyword options: an exception it ends in has
    been thrown inside one of the three provider lookups, on the store the
    resolver was entered with. *)
Theorem configured_backend_raises_only_foreign backends backend api_key kw w e :
  fst (configured_backend backends local_get_backend remote_get_backend
                          backend api_key kw w) = Raise e ->
  exists s,
    e = Foreign s
    /\ (fst (remote_get_backend api_key backend kw (store w)) = Throws s
        \/ fst (local_get_backend backend kw (store w)) = Throws s
        \/ fst (local_get_backend "default" kw (store w)) = Throws s).
Proof.
  unfold configured_backend. rewrite scan_existsb.
  destruct (existsb _ backends).
  - rewrite on_match_run.
    destruct (1 <? PyStr.len api_key)%Z; intros H;
      apply call_raises in H as (s & -> & Hs); exists s; auto.
  - rewrite on_no_match_run. intros H.
    apply call_raises in H as (s & -> & Hs). exists s. auto.
Qed.

(** X6: a request padded with whitespace on either side takes the branch
    the bare name takes, but the padding is kept in what follows: the
    provider is asked for the padded name and the message shows it. *)
Theorem padded_request_resolves_alike backends p q backend api_key kw w :
  PyStr.blank p = true ->
  PyStr.blank q = true ->
  let padded := p ++ backend ++ q in
  ((exists el, In el backends
               /\ PyStr.strip backend = PyStr.strip (Element.name el)) ->
   configured_backend backends local_get_backend remote_get_backend
                      padded api_key kw w
   = (if (1 <? PyStr.len api_key)%Z
      then call (remote_get_backend api_key padded kw)
      else call (local_get_backend padded kw))
       (mkWorld (store w)
                (trace w ++ [Print ("Using alice & bob " ++ padded
                                    ++ " backend...")])))
  /\ ((forall el, In el backends
                  -> PyStr.strip backend <> PyStr.strip (Element.name el)) ->
      configured_backend backends local_get_backend remote_get_backend
                         padded api_key kw w
      = call (local_get_backend "default" kw)
             (mkWorld (store w)
                      (trace w ++ [Warn ("Backend '" ++ padded
                                         ++ "' not found. Using default local backend.")]))).
Proof.
  intros Hp Hq padded.
  assert (Hstrip : PyStr.strip padded = PyStr.strip backend)
    by now apply strip_padded.
  unfold configured_backend. rewrite scan_existsb. split.
  - intros Hknown.
    assert (Ht : existsb (fun e => String.eqb (PyStr.strip padded)
                                     (PyStr.strip (Element.name e))) backends
                 = true).
    { apply known_existsb. now rewrite Hstrip. }
    rewrite Ht, on_match_run. now destruct (1 <? PyStr.len api_key)%Z.
  - intros Hunknown.
    assert (Hf : existsb (fun e => String.eqb (PyStr.strip padded)
                                     (PyStr.strip (Element.name e))) backends
                 = false).
    { apply unknown_existsb. now rewrite Hstrip. }
    now rewrite Hf, on_no_match_run.
Qed.

(** X5: the catalog counts through the set of its trimmed names only: two
    catalogs with the same trimmed names, in any order and any number of
    copies, give the same outcome for every request. *)
Theorem catalog_counts_by_trimmed_names catalog catalog' backend api_key kw w :
  (forall n, In n (map (fun e => PyStr.strip (Element.name e)) catalog)
             <-> In n (map (fun e => PyStr.strip (Element.name e)) catalog')) ->
  configured_backend catalog local_get_backend remote_get_backend
                     backend api_key kw w
  = configured_backend catalog' local_get_backend remote_get_backend
                       backend api_key kw w.
Proof.
  intros Hsame. unfold configured_backend. rewrite !scan_existsb.
  assert (Hmove : forall c c',
             (forall n, In n (map (fun e => PyStr.strip (Element.name e)) c)
                        -> In n (map (fun e => PyStr.strip (Element.name e)) c')) ->
             existsb (fun e => String.eqb (PyStr.strip backend)
                                 (PyStr.strip (Element.name e))) c = true ->
             existsb (fun e => String.eqb (PyStr.strip backend)
                                 (PyStr.strip (Element.name e))) c' = true).
  { intros c c' Hsub Ht. apply known_existsb in Ht as (e & Hin & He).
    assert (Hn : In (PyStr.strip backend)
                    (map (fun e => PyStr.strip (Element.name e)) c'))
      by (apply Hsub, in_map_iff; now exists e).
    apply in_map_iff in Hn as (e' & He' & Hin').
    apply known_existsb. now exists e'. }
  destruct (existsb _ catalog) eqn:H1, (existsb _ catalog') eqn:H2;
    try reflexivity.
  - rewrite (Hmove catalog catalog') in H2; [discriminate| |exact H1].
    intros n. apply Hsame.
  - rewrite (Hmove catalog' catalog) in H1; [discriminate| |exact H2].
    intros n. apply Hsame.
Qed.

End ResolverBranches.

(** X9: with a credential of at most one character, or a name the catalog
    does not have, the remote provider plays no part: any two remote
    providers give the same outcome. *)
Theorem remote_provider_needs_name_and_credential backends local_get_backend remote remote' backend api_key kw w :
  (PyStr.len api_key <= 1)%Z
  \/ (forall el, In el backends
                 -> PyStr.strip backend <> PyStr.strip (Element.name el)) ->
  configured_backend backends local_get_backend remote backend api_key kw w
  = configured_backend backends local_get_backend remote' backend api_key kw w.
Proof.
  intros Hcase. unfold configured_backend. rewrite !scan_existsb.
  destruct (existsb _ backends) eqn:Hknown; [|reflexivity].
  destruct Hcase as [Hlen|Hunknown].
  - rewrite !on_match_run. apply Z.ltb_ge in Hlen. now rewrite Hlen.
  - apply (proj2 (unknown_existsb _ _)) in Hunknown. congruence.
Qed.

(** ** More on device construction *)

Section ConstructionOutcomes.

(** The keys of [kwargs] that the call of line 68 cannot take. *)
Lemma find_collision_None (kw : kwargs) :
  find (fun p => String.eqb (fst p) "backend"
                 || String.eqb (fst p) "api_key") kw = None
  <-> has_key "backend" kw || has_key "api_key" kw = false.
Proof.
  unfold has_key. induction kw as [|[k v] rest IH]; simpl; [tauto|].
  destruct (String.eqb k "backend"), (String.eqb k "api_key"); simpl;
    rewrite ?orb_true_r; try (split; discriminate).
  exact IH.
Qed.

Lemma find_collision_Some (kw : kwargs) k v :
  find (fun p => String.eqb (fst p) "backend"
                 || String.eqb (fst p) "api_key") kw = Some (k, v) ->
  (k = "backend" \/ k = "api_key") /\ In k (map fst kw).
Proof.
  intros Hfind. apply find_some in Hfind as [Hin Hk]. simpl in Hk. split.
  - apply orb_prop in Hk as [Hk|Hk]; apply String.eqb_eq in Hk; auto.
  - apply in_map_iff. now exists (k, v).
Qed.

Variable backends : list Element.t.
Variable local_get_backend : string -> kwargs -> extern.
Variable remote_get_backend : string -> string -> kwargs -> extern.

Local Abbreviation resolver :=
  (call_configured_backend backends local_get_backend remote_get_backend).

(** After line 68 nothing is printed or warned. *)
Lemma new_trace_after_resolver qml_device wires shots seed max_workers alice_backend api_token kw w :
  trace (snd (__new__ backends local_get_backend remote_get_backend qml_device
                      wires shots seed max_workers alice_backend api_token kw w))
  = trace (snd (resolver alice_backend api_token kw w)).
Proof.
  destruct (resolver alice_backend api_token kw w) as [[v|e] w1] eqn:Hres.
  - destruct v as [| n | s | l].
    + rewrite (new_on_no_object _ _ _ _ _ _ _ _ _ _ _ _ _ _ Hres);
        [reflexivity|discriminate].
    + rewrite (new_on_no_object _ _ _ _ _ _ _ _ _ _ _ _ _ _ Hres);
        [reflexivity|discriminate].
    + rewrite (new_on_no_object _ _ _ _ _ _ _ _ _ _ _ _ _ _ Hres);
        [reflexivity|discriminate].
    + rewrite (new_on_object _ _ _ _ _ _ _ _ _ _ _ _ _ _ Hres).
      now rewrite call_trace.
  - now rewrite (new_on_raise _ _ _ _ _ _ _ _ _ _ _ _ _ _ Hres).
Qed.

(** X10: what a construction prints or warns, in every run: nothing when
    a keyword option is called [backend] or [api_key]; otherwise one
    message, the line naming the backend when the catalog has the name,
    the warning when it has not. Neither the providers nor the device
    factory, returning or raising, change this. *)
Theorem new_emits_one_message qml_device wires shots seed max_workers alice_backend api_token kw w :
  trace (snd (__new__ backends local_get_backend remote_get_backend qml_device
                      wires shots seed max_workers alice_backend api_token kw w))
  = (trace w
     ++ (if has_key "backend" kw || has_key "api_key" kw then []
         else if existsb (fun e => String.eqb (PyStr.strip alice_backend)
                                     (PyStr.strip (Element.name e))) backends
              then [Print ("Using alice & bob " ++ alice_backend
                           ++ " backend...")]
              else [Warn ("Backend '" ++ alice_backend
                          ++ "' not found. Using default local backend.")]))%list.
Proof.
  rewrite new_trace_after_resolver.
  unfold call_configured_backend.
  destruct (find _ kw) as [[k v]|] eqn:Hfind.
  - destruct (has_key "backend" kw || has_key "api_key" kw) eqn:Hkey.
    + simpl. now rewrite app_nil_r.
    + apply find_collision_None in Hkey. congruence.
  - rewrite (proj1 (find_collision_None kw) Hfind).
    unfold configured_backend. rewrite scan_existsb.
    destruct (existsb _ backends).
    + rewrite on_match_run.
      destruct (1 <? PyStr.len api_token)%Z; now rewrite call_trace.
    + rewrite on_no_match_run. now rewrite call_trace.
Qed.

(** X4: the exceptions a construction can end in: the [TypeError] of a
    keyword option called [backend] or [api_key]; the [AttributeError] of
    line 76, on [configuration], when the resolver returned something that
    is no object; or an exception thrown inside a collaborator. *)
Theorem new_raises_one_of_three qml_device wires shots seed max_workers alice_backend api_token kw w e :
  fst (__new__ backends local_get_backend remote_get_backend qml_device
               wires shots seed max_workers alice_backend api_token kw w)
  = Raise e ->
  (exists k, e = TypeError_multiple_values k
             /\ (k = "backend" \/ k = "api_key")
             /\ In k (map fst kw))
  \/ (exists v w1, resolver alice_backend api_token kw w = (Ret v, w1)
                   /\ (forall l, v <> VRef l)
                   /\ e = AttributeError (class_of (store w1) v) "configuration")
  \/ (exists s, e = Foreign s).
Proof.
  destruct (resolver alice_backend api_token kw w) as [[v|e'] w1] eqn:Hres.
  - destruct v as [| n | s | l].
    + rewrite (new_on_no_object _ _ _ _ _ _ _ _ _ _ _ _ _ _ Hres);
        [|discriminate].
      intros [= <-]. right. left. exists VNone, w1. repeat split; discriminate.
    + rewrite (new_on_no_object _ _ _ _ _ _ _ _ _ _ _ _ _ _ Hres);
        [|discriminate].
      intros [= <-]. right. left. exists (VInt n), w1. repeat split; discriminate.
    + rewrite (new_on_no_object _ _ _ _ _ _ _ _ _ _ _ _ _ _ Hres);
        [|discriminate].
      intros [= <-]. right. left. exists (VStr s), w1. repeat split; discriminate.
    + rewrite (new_on_object _ _ _ _ _ _ _ _ _ _ _ _ _ _ Hres). intros H.
      apply call_raises in H as (s & -> & _). right. right. now exists s.
  - rewrite (new_on_raise _ _ _ _ _ _ _ _ _ _ _ _ _ _ Hres). intros [= <-].
    unfold call_configured_backend in Hres.
    destruct (find _ kw) as [[k v]|] eqn:Hfind.
    + injection Hres as <- _. left. exists k. split; [reflexivity|].
      now apply find_collision_Some in Hfind.
    + right. right.
      assert (H : fst (configured_backend backends local_get_backend
                         remote_get_backend alice_backend api_token kw w)
                  = Raise e') by now rewrite Hres.
      now apply scan_raises in H.
Qed.

(** X8: when the resolver returns [None], an [int] or a [str], the
    construction ends in the [AttributeError] of line 76, which names the
    class of that value and the attribute [configuration]; the store and
    the trace are as the resolver left them. *)
Theorem new_on_non_object_handle qml_device wires shots seed max_workers alice_backend api_token kw w v w1 :
  resolver alice_backend api_token kw w = (Ret v, w1) ->
  (forall l, v <> VRef l) ->
  __new__ backends local_get_backend remote_get_backend qml_device
          wires shots seed max_workers alice_backend api_token kw w
  = (Raise (AttributeError (class_of (store w1) v) "configuration"), w1)
  /\ In (class_of (store w1) v) ["NoneType"; "int"; "str"].
Proof.
  intros Hres Hv. split.
  - now apply new_on_no_object.
  - destruct v as [| n | s | l]; simpl; auto. now destruct (Hv l).
Qed.

(** X11: [qml.device] is called only on an object the resolver returned:
    when the resolver raises, or returns something that is no object, the
    outcome of the construction is the same for any two device
    factories. *)
Theorem device_factory_needs_a_handle qml_device qml_device' wires shots seed max_workers alice_backend api_token kw w :
  (forall l, fst (resolver alice_backend api_token kw w) <> Ret (VRef l)) ->
  __new__ backends local_get_backend remote_get_backend qml_device
          wires shots seed max_workers alice_backend api_token kw w
  = __new__ backends local_get_backend remote_get_backend qml_device'
            wires shots seed max_workers alice_backend api_token kw w.
Proof.
  intros Hno.
  destruct (resolver alice_backend api_token kw w) as [[v|e] w1] eqn:Hres.
  - assert (Hv : forall l, v <> VRef l)
      by (intros l ->; now apply (Hno l)).
    now rewrite !(new_on_no_object _ _ _ _ _ _ _ _ _ _ _ _ _ _ Hres Hv).
  - now rewrite !(new_on_raise _ _ _ _ _ _ _ _ _ _ _ _ _ _ Hres).
Qed.

(** X7: a device factory that raises does not undo line 76. When the
    resolver returned an object and [qml.device] then throws, leaving the
    store as it found it, the construction ends in that exception and the
    object keeps the new [configuration]; its other attributes are as the
    resolver left them. *)
Theorem failed_factory_keeps_overlay qml_device wires shots seed max_workers alice_backend api_token kw w l w1 s :
  resolver alice_backend api_token kw w = (Ret (VRef l), w1) ->
  qml_device "qiskit.remote" wires (VRef l) shots
             (store_attr (store w1) l "configuration" (AConf wires))
  = (Throws s, store_attr (store w1) l "configuration" (AConf wires)) ->
  exists w',
    __new__ backends local_get_backend remote_get_backend qml_device
            wires shots seed max_workers alice_backend api_token kw w
    = (Raise (Foreign s), w')
    /\ trace w' = trace w1
    /\ getattr (store w') l "configuration" = Some (AConf wires)
    /\ (forall k, k <> "configuration" ->
                  getattr (store w') l k = getattr (store w1) l k).
Proof.
  intros Hres Hthrow.
  exists (mkWorld (store_attr (store w1) l "configuration" (AConf wires))
                  (trace w1)).
  rewrite (new_on_object _ _ _ _ _ _ _ _ _ _ _ _ _ _ Hres).
  unfold call. simpl. rewrite Hthrow. repeat split.
  - apply getattr_store_attr_same.
  - intros k Hk. now apply getattr_store_attr_other.
Qed.

End ConstructionOutcomes.

(** The first pair of [kwargs] whose key is [backend] or [api_key] is the
    one [find] returns. *)
Lemma find_first_collision (before : kwargs) k v (after : kwargs) :
  k = "backend" \/ k = "api_key" ->
  Forall (fun p => fst p <> "backend" /\ fst p <> "api_key") before ->
  find (fun p => String.eqb (fst p) "backend"
                 || String.eqb (fst p) "api_key")
       (before ++ (k, v) :: after)%list
  = Some (k, v).
Proof.
  intros Hk Hbefore. induction Hbefore as [|[k' v'] before [Hb Ha] _ IH]; simpl.
  - destruct Hk as [->| ->]; reflexivity.
  - simpl in Hb, Ha. apply String.eqb_neq in Hb, Ha. now rewrite Hb, Ha.
Qed.

(** Every [kwargs] with a key [backend] or [api_key] has a first one. *)
Lemma collision_has_first (kw : kwargs) :
  has_key "backend" kw || has_key "api_key" kw = true ->
  exists before k v after,
    kw = (before ++ (k, v) :: after)%list
    /\ (k = "backend" \/ k = "api_key")
    /\ Forall (fun p => fst p <> "backend" /\ fst p <> "api_key") before.
Proof.
  unfold has_key. induction kw as [|[k v] rest IH]; simpl; [discriminate|].
  destruct (String.eqb k "backend") eqn:Hb.
  - intros _. apply String.eqb_eq in Hb. exists [], k, v, rest. auto.
  - destruct (String.eqb k "api_key") eqn:Ha.
    + intros _. apply String.eqb_eq in Ha. exists [], k, v, rest. auto.
    + simpl. intros Hrest.
      destruct (IH Hrest) as (before & k' & v' & after & -> & Hk' & Hbefore).
      exists ((k, v) :: before), k', v', after. repeat split; [exact Hk'|].
      constructor; [|exact Hbefore]. simpl.
      apply String.eqb_neq in Hb, Ha. now split.
Qed.

(** X1: a keyword option called [backend] or [api_key] stops every
    construction at line 68 with the [TypeError] of a parameter bound
    twice, and the key it names is the first such key of [kwargs], in the
    order given: the one with no [backend] and no [api_key] before it. No
    collaborator is consulted, nothing is printed, the store is
    untouched. *)
Theorem keyword_collision_stops_construction (before : kwargs) k v (after : kwargs) :
  k = "backend" \/ k = "api_key" ->
  Forall (fun p => fst p <> "backend" /\ fst p <> "api_key") before ->
  forall backends local_get_backend remote_get_backend qml_device
         wires shots seed max_workers alice_backend api_token w,
    __new__ backends local_get_backend remote_get_backend qml_device
            wires shots seed max_workers alice_backend api_token
            (before ++ (k, v) :: after)%list w
    = (Raise (TypeError_multiple_values k), w).
Proof.
  intros Hk Hbefore. intros.
  apply new_on_raise. unfold call_configured_backend.
  now rewrite (find_first_collision _ _ _ _ Hk Hbefore).
Qed.

(** ** The further theorems at the test doubles *)

Lemma keyword_collision_stops_construction_witness :
  __new__ Double.backends Double.local_get_backend
          Double.remote_get_backend Double.qml_device
          (VInt 1) (VInt 1024) default_seed default_max_workers
          default_alice_backend default_api_token
          [("kappa_1", VInt 10); ("api_key", VStr "k"); ("backend", VStr "b")]
          Double.w0
  = (Raise (TypeError_multiple_values "api_key"), Double.w0).
Proof.
  apply (keyword_collision_stops_construction
           [("kappa_1", VInt 10)] "api_key" (VStr "k") [("backend", VStr "b")]).
  - right. reflexivity.
  - constructor; [|constructor]. simpl. split; discriminate.
Defined.

Lemma configured_backend_raises_only_foreign_witness :
  exists s,
    Foreign "QiskitBackendNotFoundError" = Foreign s
    /\ (fst (Double.remote_get_backend "" "NONEXISTENT_BACKEND" [] ∅) = Throws s
        \/ fst (Double.strict_get_backend "NONEXISTENT_BACKEND" [] ∅) = Throws s
        \/ fst (Double.strict_get_backend "default" [] ∅) = Throws s).
Proof.
  apply (configured_backend_raises_only_foreign
           Double.strict_get_backend Double.remote_get_backend
           Double.backends "NONEXISTENT_BACKEND" "" [] Double.w0).
  reflexivity.
Defined.

Lemma padded_request_resolves_alike_witness :
  configured_backend Double.backends Double.local_get_backend
                     Double.remote_get_backend
                     ("  " ++ "EMU:6Q:PHYSICAL_CATS" ++ String "009" "")
                     "" [] Double.w0
  = (Ret (VRef 1),
     mkWorld (<[1%positive :=
                 Double.backend_object
                   "local" ("  EMU:6Q:PHYSICAL_CATS" ++ String "009" "") []]> ∅)
             [Print ("Using alice & bob   EMU:6Q:PHYSICAL_CATS"
                     ++ String "009" " backend...")]).
Proof.
  destruct (padded_request_resolves_alike
              Double.local_get_backend Double.remote_get_backend
              Double.backends "  " (String "009" "") "EMU:6Q:PHYSICAL_CATS"
              "" [] Double.w0) as [Hknown _].
  - reflexivity.
  - reflexivity.
  - rewrite Hknown; [reflexivity|].
    exists (Element.mk " EMU:6Q:PHYSICAL_CATS "). split.
    + simpl. auto.
    + reflexivity.
Defined.

Lemma catalog_counts_by_trimmed_names_witness :
  configured_backend Double.backends Double.local_get_backend
                     Double.remote_get_backend
                     "EMU:1Q:LESCANNE_2020" "token" [] Double.w0
  = configured_backend
      [ Element.mk "EMU:1Q:LESCANNE_2020  ";
        Element.mk "EMU:6Q:PHYSICAL_CATS";
        Element.mk "EMU:40Q:LOGICAL_TARGET";
        Element.mk "  EMU:1Q:LESCANNE_2020" ]
      Double.local_get_backend Double.remote_get_backend
      "EMU:1Q:LESCANNE_2020" "token" [] Double.w0.
Proof.
  apply (catalog_counts_by_trimmed_names
           Double.local_get_backend Double.remote_get_backend).
  intros n. vm_compute. tauto.
Defined.

Lemma remote_provider_needs_name_and_credential_witness :
  configured_backend Double.backends Double.local_get_backend
                     Double.remote_get_backend
                     "EMU:1Q:LESCANNE_2020" "x" [] Double.w0
  = configured_backend Double.backends Double.local_get_backend
                       (fun _ _ _ h => (Throws "HTTPError", h))
                       "EMU:1Q:LESCANNE_2020" "x" [] Double.w0.
Proof.
  apply (remote_provider_needs_name_and_credential
           Double.backends Double.local_get_backend
           Double.remote_get_backend (fun _ _ _ h => (Throws "HTTPError", h))
           "EMU:1Q:LESCANNE_2020" "x" [] Double.w0).
  left. vm_compute. discriminate.
Defined.

Lemma new_raises_one_of_three_witness :
  (exists k, AttributeError "str" "configuration" = TypeError_multiple_values k
             /\ (k = "backend" \/ k = "api_key")
             /\ In k (map fst (@nil (string * val))))
  \/ (exists v w1,
         call_configured_backend Double.backends Double.echo_get_backend
                                 Double.remote_get_backend
                                 "EMU:1Q:LESCANNE_2020" "" [] Double.w0
         = (Ret v, w1)
         /\ (forall l, v <> VRef l)
         /\ AttributeError "str" "configuration"
            = AttributeError (class_of (store w1) v) "configuration")
  \/ (exists s, AttributeError "str" "configuration" = Foreign s).
Proof.
  apply (new_raises_one_of_three
           Double.backends Double.echo_get_backend Double.remote_get_backend
           Double.qml_device (VInt 1) (VInt 1024) default_seed
           default_max_workers "EMU:1Q:LESCANNE_2020" "" [] Double.w0).
  reflexivity.
Defined.

Lemma new_on_non_object_handle_witness :
  __new__ Double.backends Double.echo_get_backend Double.remote_get_backend
          Double.qml_device (VInt 1) (VInt 1024) default_seed
          default_max_workers "NONEXISTENT_BACKEND" "" [] Double.w0
  = (Raise (AttributeError "str" "configuration"),
     mkWorld ∅ [Warn "Backend 'NONEXISTENT_BACKEND' not found. Using default local backend."])
  /\ In "str" ["NoneType"; "int"; "str"].
Proof.
  apply (new_on_non_object_handle
           Double.backends Double.echo_get_backend Double.remote_get_backend
           Double.qml_device (VInt 1) (VInt 1024) default_seed
           default_max_workers "NONEXISTENT_BACKEND" "" [] Double.w0
           (VStr "default")
           (mkWorld ∅ [Warn "Backend 'NONEXISTENT_BACKEND' not found. Using default local backend."])).
  - reflexivity.
  - intros l. discriminate.
Defined.

Lemma device_factory_needs_a_handle_witness :
  __new__ Double.backends Double.null_get_backend Double.remote_get_backend
          Double.qml_device (VInt 1) (VInt 1024) default_seed
          default_max_workers "EMU:1Q:LESCANNE_2020" "" [] Double.w0
  = __new__ Double.backends Double.null_get_backend Double.remote_get_backend
            Double.broken_qml_device (VInt 1) (VInt 1024) default_seed
            default_max_workers "EMU:1Q:LESCANNE_2020" "" [] Double.w0.
Proof.
  apply (device_factory_needs_a_handle
           Double.backends Double.null_get_backend Double.remote_get_backend
           Double.qml_device Double.broken_qml_device).
  intros l. vm_compute. discriminate.
Defined.

Lemma failed_factory_keeps_overlay_witness :
  exists w',
    __new__ Double.backends Double.local_get_backend
            Double.remote_get_backend Double.broken_qml_device
            (VInt 4) (VInt 1024) default_seed default_max_workers
            "EMU:1Q:LESCANNE_2020" "" [] Double.w0
    = (Raise (Foreign "DeviceError"), w')
    /\ trace w' = [Print "Using alice & bob EMU:1Q:LESCANNE_2020 backend..."]
    /\ getattr (store w') 1 "configuration" = Some (AConf (VInt 4))
    /\ (forall k, k <> "configuration" ->
                  getattr (store w') 1 k
                  = getattr (<[1%positive :=
                                Double.backend_object
                                  "local" "EMU:1Q:LESCANNE_2020" []]> ∅) 1 k).
Proof.
  destruct (failed_factory_keeps_overlay
           Double.backends Double.local_get_backend
           Double.remote_get_backend Double.broken_qml_device
           (VInt 4) (VInt 1024) default_seed default_max_workers
           "EMU:1Q:LESCANNE_2020" "" [] Double.w0 1%positive
           (mkWorld (<[1%positive :=
                        Double.backend_object
                          "local" "EMU:1Q:LESCANNE_2020" []]> ∅)
                    [Print "Using alice & bob EMU:1Q:LESCANNE_2020 backend..."])
           "DeviceError") as (w' & Hnew & Htrace & Hconf & Hothers).
  - reflexivity.
  - reflexivity.
  - exists w'. simpl in Htrace, Hothers. auto.
Defined.

